(** * Wildfire dashboard (streamlit_app.py): data pipeline and chart linking

    A shallow embedding of the script [streamlit_app.py]: the table read from
    the CSV file, the census-region lookup, the two [groupby(...).size()]
    aggregates, the selection parameter shared by the bar and the line chart,
    the duration column with its data-quality filter, and the state dropdown
    with the filtered view it selects.

    A data frame is the list of its rows, in row order.  A cell that pandas
    holds as NaN / NaT / None is [None].  Timestamps are [datetime64[ns]]
    values: integers counting nanoseconds.

    The script fixes no release of its libraries.  Where the releases of
    Altair differ on what the script writes (the string passed as [empty] in
    line 45), the release is a parameter of the model, and a statement holds
    for every release unless it says otherwise. *)

From Stdlib Require Import QArith.
From stdpp Require Import gmap strings list sorting.

Local Open Scope Z_scope.
Local Open Scope string_scope.

(** ** The table *)

Record Row := mkRow {
  STATE : option string;
  FIRE_YEAR : option Z;
  DISCOVERY_DATE : option Z;
  CONTAINMENT_DATE : option Z;
  FIRE_SIZE : option Q;
  STAT_CAUSE_DESCR : option string;
  FIRE_NAME : option string;
  COUNTY : option string;
  REGION : option string;
  DURATION_DAYS : option Z
}.

Abbreviation DataFrame := (list Row).

(** [df["REGION"] = v] and [df["DURATION_DAYS"] = v], one row at a time. *)
Definition set_REGION (v : option string) (r : Row) : Row :=
  mkRow (STATE r) (FIRE_YEAR r) (DISCOVERY_DATE r) (CONTAINMENT_DATE r)
        (FIRE_SIZE r) (STAT_CAUSE_DESCR r) (FIRE_NAME r) (COUNTY r)
        v (DURATION_DAYS r).

Definition set_DURATION_DAYS (v : option Z) (r : Row) : Row :=
  mkRow (STATE r) (FIRE_YEAR r) (DISCOVERY_DATE r) (CONTAINMENT_DATE r)
        (FIRE_SIZE r) (STAT_CAUSE_DESCR r) (FIRE_NAME r) (COUNTY r)
        (REGION r) v.

(** ** Python and pandas primitives used by the script *)

Module Py.

(** [list.index(x)]: the position of the first element equal to [x];
    [None] stands for the [ValueError] raised when there is none. *)
Fixpoint index (x : string) (l : list string) : option nat :=
  match l with
  | [] => None
  | y :: l' => if decide (y = x) then Some 0%nat else S <$> index x l'
  end.

(** [sorted(l)] on strings: ascending in the code-point order. *)
Definition sorted (l : list string) : list string := merge_sort String.le l.

End Py.

Module Pd.

(** [Series.unique()]: the distinct values in order of first appearance. *)
Fixpoint unique `{EqDecision A} (l : list A) : list A :=
  match l with
  | [] => []
  | x :: l' => x :: filter (λ y, y ≠ x) (unique l')
  end.

(** [Series.dropna()]. *)
Definition dropna {A} (l : list (option A)) : list A := omap id l.

(** [Series.map(dict)]: a value that is missing, or is no key of the
    dictionary, maps to a missing value. *)
Definition map_dict (d : gmap string string) (v : option string) : option string :=
  v ≫= (d !!.).

(** Number of rows of [df] whose key is [k]. *)
Definition group_size `{EqDecision K} (key : Row → option K) (df : DataFrame) (k : K) : nat :=
  length (filter (λ r, key r = Some k) df).

(** [df.groupby(keys).size().reset_index(name=...)] with the defaults
    [sort=True] and [dropna=True]: one row per distinct key among the rows
    whose key columns are all present, in ascending key order, holding the
    number of rows of that key. *)
Definition groupby_size `{EqDecision K} (le : relation K) `{!RelDecision le}
    (key : Row → option K) (df : DataFrame) : list (K * nat) :=
  (λ k, (k, group_size key df k)) <$> merge_sort le (unique (omap key df)).

(** [(a - b).dt.days]: the difference of two timestamps floored to whole
    days; missing as soon as one side is. *)
Definition ns_per_day : Z := 86400000000000.

Definition timedelta_days (a b : option Z) : option Z :=
  x ← a; y ← b; Some ((x - y) `div` ns_per_day).

End Pd.

(** ** Lines 25-37: the census sub-region lookup *)

Definition region_map : list (string * list string) :=
  [ ("Pacific", ["AK"; "CA"; "HI"; "OR"; "WA"]);
    ("Mountain", ["AZ"; "CO"; "ID"; "MT"; "NV"; "NM"; "UT"; "WY"]);
    ("West South Central", ["AR"; "LA"; "OK"; "TX"]);
    ("East South Central", ["AL"; "KY"; "MS"; "TN"]);
    ("South Atlantic", ["DE"; "DC"; "FL"; "GA"; "MD"; "NC"; "SC"; "VA"; "WV"]);
    ("West North Central", ["IA"; "KS"; "MN"; "MO"; "NE"; "ND"; "SD"]);
    ("East North Central", ["IL"; "IN"; "MI"; "OH"; "WI"]);
    ("Mid-Atlantic", ["NJ"; "NY"; "PA"]);
    ("New England", ["CT"; "ME"; "MA"; "NH"; "RI"; "VT"]) ].

(** [{state: region for region, states in region_map.items() for state in states}]:
    the pairs are inserted in iteration order, a later one replacing an
    earlier one of the same key. *)
Definition state_to_region : gmap string string :=
  foldl (λ d '(region, states), foldl (λ d state, <[state := region]> d) d states)
        ∅ region_map.

(** [data["REGION"] = data["STATE"].map(state_to_region)] *)
Definition assign_region (data : DataFrame) : DataFrame :=
  (λ r, set_REGION (Pd.map_dict state_to_region (STATE r)) r) <$> data.

(** ** Lines 40 and 66: the count aggregates *)

(** Ascending order on the key pairs [(FIRE_YEAR, STATE)]: by year, then by
    state code. *)
Definition year_state_le (a b : Z * string) : Prop :=
  a.1 < b.1 ∨ (a.1 = b.1 ∧ String.le a.2 b.2).

#[global] Instance year_state_le_dec : RelDecision year_state_le.
Proof. intros a b. unfold year_state_le. apply _. Defined.

Definition year_state_key (r : Row) : option (Z * string) :=
  y ← FIRE_YEAR r; s ← STATE r; Some (y, s).

(** [data.groupby(["STATE"]).size().reset_index(name="Fire_Count")] *)
Definition state_counts (data : DataFrame) : list (string * nat) :=
  Pd.groupby_size String.le STATE data.

(** [data.groupby(["FIRE_YEAR", "STATE"]).size().reset_index(name="Fire_Count")] *)
Definition yearly_trends (data : DataFrame) : list ((Z * string) * nat) :=
  Pd.groupby_size year_state_le year_state_key data.

(** ** Line 45: the selection parameter and what Altair does with it *)

Module Alt.

Inductive EmptyPolicy := EmptyAll | EmptyNone.

(** What the installed Altair does with the string "none" passed as [empty]
    to [selection_point]: release 5.5.0 reads it as [empty=False] (and
    warns that the string is deprecated); release 6.3.0 ignores it, which
    leaves Vega-Lite's default, [empty=True]. *)
Inductive Release := RemapsEmptyString | IgnoresEmptyString.

#[global] Instance Release_eq_dec : EqDecision Release.
Proof. solve_decision. Defined.

(** [empty="none"] as the release takes it. *)
Definition empty_none (release : Release) : EmptyPolicy :=
  match release with
  | RemapsEmptyString => EmptyNone
  | IgnoresEmptyString => EmptyAll
  end.

Record Param := mkParam {
  fields : list string;
  toggle : bool;
  empty : EmptyPolicy
}.

(** The test of a point selection on the field STATE against a datum: a
    datum is inside the selection when its state is one of the selected
    ones; while nothing is selected, [empty] decides. *)
Definition test (p : Param) (selected : gset string) (state : string) : bool :=
  if decide (selected = ∅)
  then match empty p with EmptyAll => true | EmptyNone => false end
  else bool_decide (state ∈ selected).

(** [alt.condition(p, alt.value(a), alt.value(b))] *)
Definition condition {V} (p : Param) (a b : V) (selected : gset string) (state : string) : V :=
  if test p selected state then a else b.

(** [chart.transform_filter(p)] *)
Definition transform_filter {D} (p : Param) (state_of : D → string)
    (selected : gset string) (rows : list D) : list D :=
  filter (λ d, test p selected (state_of d) = true) rows.

End Alt.

(** [alt.selection_point(fields=["STATE"], toggle=True, empty="none")] *)
Definition click_selection (altair : Alt.Release) : Alt.Param :=
  Alt.mkParam ["STATE"] true (Alt.empty_none altair).

(** ** Lines 52-79: the two linked charts *)

(** One bar per row of [state_counts]: state, height, opacity. *)
Definition bar_chart (click_selection : Alt.Param) (state_counts : list (string * nat))
    (selected : gset string) : list (string * nat * Q) :=
  (λ '(s, n), (s, n, Alt.condition click_selection 1%Q (1 # 2)%Q selected s))
    <$> state_counts.

(** The rows of [yearly_trends] that pass the selection filter. *)
Definition line_chart (click_selection : Alt.Param)
    (yearly_trends : list ((Z * string) * nat)) (selected : gset string)
    : list ((Z * string) * nat) :=
  Alt.transform_filter click_selection (λ d, d.1.2) selected yearly_trends.

(** ** Lines 99-101: duration and the data-quality filter *)

(** The [.dt] accessor of line 99 needs a column of timestamps.  For a file
    without rows [read_csv] leaves the date columns at dtype object, and
    [.dt] raises AttributeError: [None]. *)
Definition dt_accessor (data : DataFrame) : option unit :=
  match data with
  | [] => None
  | _ :: _ => Some ()
  end.

(** [data["DURATION_DAYS"] = (data["CONTAINMENT_DATE"] - data["DISCOVERY_DATE"]).dt.days],
    row by row, on a table that [dt_accessor] accepts. *)
Definition assign_duration (data : DataFrame) : DataFrame :=
  (λ r, set_DURATION_DAYS (Pd.timedelta_days (CONTAINMENT_DATE r) (DISCOVERY_DATE r)) r)
    <$> data.

(** [data.dropna(subset=["DURATION_DAYS", "FIRE_SIZE", "STAT_CAUSE_DESCR"])] *)
Definition dropna_subset (data : DataFrame) : DataFrame :=
  filter (λ r, is_Some (DURATION_DAYS r) ∧ is_Some (FIRE_SIZE r)
               ∧ is_Some (STAT_CAUSE_DESCR r)) data.

(** [data["DURATION_DAYS"] >= 0], row by row; a missing value compares false. *)
Definition duration_ge_0 (r : Row) : bool :=
  match DURATION_DAYS r with
  | Some d => bool_decide (0 ≤ d)%Z
  | None => false
  end.

(** [data[data["DURATION_DAYS"] >= 0]] *)
Definition nonneg_duration (data : DataFrame) : DataFrame :=
  filter (λ r, duration_ge_0 r = true) data.

Definition with_duration (data : DataFrame) : DataFrame :=
  nonneg_duration (dropna_subset (assign_duration data)).

(** ** Lines 104-109: the dropdown and the filtered view *)

Definition All_States : string := "All States".

(** [["All States"] + sorted(data["STATE"].dropna().unique())] *)
Definition state_options (data : DataFrame) : list string :=
  [All_States] ++ Py.sorted (Pd.unique (Pd.dropna (STATE <$> data))).

(** [st.selectbox(label, options=options, index=i)]: the option the user
    picked, and the option at position [i] while nothing was picked (or the
    pick is no option).  [None] is an [index] out of range. *)
Definition selectbox (options : list string) (i : nat) (picked : option string)
    : option string :=
  default ← options !! i;
  Some (match picked with
        | Some c => if decide (c ∈ options) then c else default
        | None => default
        end).

(** Line 106; [None] is the [ValueError] of [state_options.index("CA")]. *)
Definition selected_state (state_options : list string) (picked : option string)
    : option string :=
  i ← Py.index "CA" state_options; selectbox state_options i picked.

(** [data if selected_state == "All States" else data[data["STATE"] == selected_state]] *)
Definition scatter_data (data : DataFrame) (selected_state : string) : DataFrame :=
  if decide (selected_state = All_States) then data
  else filter (λ r, STATE r = Some selected_state) data.

(** ** The script, top to bottom *)

(** The script's variables once it has run.  [altair] is the installed
    release of Altair, [csv] the table that [load_data] returns, [selected]
    the states selected by clicks on the bar chart, [picked] the dropdown
    entry the user chose, if any.  [v_data] and [v_state_options] are what
    lines 99-104 compute when line 99 does not raise. *)
Record Globals := mkGlobals {
  v_state_counts : list (string * nat);
  v_bar_chart : list (string * nat * Q);
  v_yearly_trends : list ((Z * string) * nat);
  v_line_chart : list ((Z * string) * nat);
  v_data : DataFrame;
  v_state_options : list string;
  (** [selected_state] and [scatter_data]; [None] when the script stopped
      before: line 99 raised (a table without rows) or line 106 did *)
  v_lower : option (string * DataFrame)
}.

Definition app (altair : Alt.Release) (csv : DataFrame) (selected : gset string)
    (picked : option string) : Globals :=
  let data := csv in
  let data := assign_region data in
  let state_counts := state_counts data in
  let click_selection := click_selection altair in
  let bar_chart := bar_chart click_selection state_counts selected in
  let yearly_trends := yearly_trends data in
  let line_chart := line_chart click_selection yearly_trends selected in
  let line_99 := dt_accessor data in
  let data := with_duration data in
  let state_options := state_options data in
  mkGlobals state_counts bar_chart yearly_trends line_chart data state_options
    (_ ← line_99;
     selected_state ← selected_state state_options picked;
     Some (selected_state, scatter_data data selected_state)).

(** * Vocabulary of the statements *)

(** The row's key is present and satisfies [P]. *)
Definition key_sat {K} (key : Row → option K) (P : K → Prop) (r : Row) : Prop :=
  match key r with Some k => P k | None => False end.

#[global] Instance key_sat_dec {K} (key : Row → option K) (P : K → Prop)
  `{!∀ k, Decision (P k)} (r : Row) : Decision (key_sat key P r).
Proof. unfold key_sat. destruct (key r); apply _. Defined.

(** The state is inside the selection as the charts test it: it is
    selected, or nothing is selected and the release ignores
    [empty="none"]. *)
Definition passes (altair : Alt.Release) (selected : gset string) (s : string) : Prop :=
  s ∈ selected ∨ (selected = ∅ ∧ altair = Alt.IgnoresEmptyString).

#[global] Instance passes_dec altair selected s : Decision (passes altair selected s).
Proof. unfold passes. apply _. Defined.

(** 1 when the row's key is [k], 0 otherwise. *)
Definition hit `{EqDecision K} (key : Row → option K) (r : Row) (k : K) : nat :=
  if decide (key r = Some k) then 1%nat else 0%nat.

(** The key column of a [groupby(...).size()] result. *)
Definition group_keys `{EqDecision K} (le : relation K) `{!RelDecision le}
    (key : Row → option K) (df : DataFrame) : list K :=
  merge_sort le (Pd.unique (omap key df)).

(** The state codes that [region_map] lists, region after region. *)
Definition listed_states : list string := mjoin (region_map.*2).

(** The rows that lines 100-101 keep: duration, size and cause are present
    and the duration is not negative. *)
Definition survives (r : Row) : Prop :=
  is_Some (FIRE_SIZE r) ∧ is_Some (STAT_CAUSE_DESCR r)
  ∧ ∃ d, DURATION_DAYS r = Some d ∧ (0 ≤ d)%Z.

#[global] Instance survives_dec (r : Row) : Decision (survives r).
Proof.
  unfold survives. destruct (DURATION_DAYS r) as [d|].
  - destruct (decide (is_Some (FIRE_SIZE r) ∧ is_Some (STAT_CAUSE_DESCR r)
                      ∧ (0 ≤ d)%Z)) as [H|H].
    + left. destruct H as (? & ? & ?). eauto.
    + right. intros (? & ? & d' & [= <-] & ?). tauto.
  - right. by intros (_ & _ & d & [=] & _).
Defined.

(** ** Tables used as examples *)

(** A calendar day, as a timestamp: [day n] is midnight of day [n]. *)
Definition day (n : Z) : Z := n * Pd.ns_per_day.

(** A single fire, in California, whose FIRE_YEAR cell is empty. *)
Definition fire_without_year : DataFrame :=
  [ mkRow (Some "CA") None (Some (day 0)) (Some (day 1)) (Some (3 # 2)%Q)
          (Some "Lightning") None None None None ].

(** A single fire, in California, in 2003. *)
Definition one_fire : DataFrame :=
  [ mkRow (Some "CA") (Some 2003) (Some (day 0)) (Some (day 1)) (Some (3 # 2)%Q)
          (Some "Lightning") None None None None ].

(** Two fires that pass the data-quality filter, one in Texas and one in
    California, and a Nevada fire contained five days before its discovery. *)
Definition three_fires : DataFrame :=
  [ mkRow (Some "TX") (Some 2000) (Some (day 0)) (Some (day 3))
          (Some (10 # 1)%Q) (Some "Arson") None None None None;
    mkRow (Some "CA") (Some 2001) (Some (day 0)) (Some (day 1))
          (Some (3 # 2)%Q) (Some "Lightning") None None None None;
    mkRow (Some "NV") (Some 2005) (Some (day 10)) (Some (day 5))
          (Some (1 # 4)%Q) (Some "Campfire") None None None None ].

(** Three fires in California (2000, 2000, 2001) and two in Texas (2000),
    each contained the day after its discovery. *)
Definition fire (state : string) (year : Z) : Row :=
  mkRow (Some state) (Some year) (Some (day 0)) (Some (day 1)) (Some 1%Q)
        (Some "Arson") None None None None.

Definition five_fires : DataFrame :=
  [ fire "CA" 2000; fire "TX" 2000; fire "CA" 2000; fire "CA" 2001; fire "TX" 2000 ].

(** * Properties *)

(** ** The script on the example tables *)

Example five_fires_state_counts :
  v_state_counts (app Alt.RemapsEmptyString five_fires ∅ None) = [("CA", 3%nat); ("TX", 2%nat)].
Proof. vm_compute. reflexivity. Qed.

Example five_fires_yearly_trends :
  v_yearly_trends (app Alt.RemapsEmptyString five_fires ∅ None)
  = [((2000, "CA"), 2%nat); ((2000, "TX"), 2%nat); ((2001, "CA"), 1%nat)].
Proof. vm_compute. reflexivity. Qed.

Example five_fires_click_CA (altair : Alt.Release) :
  v_line_chart (app altair five_fires {["CA"]} None)
  = [((2000, "CA"), 2%nat); ((2001, "CA"), 1%nat)]
  ∧ v_bar_chart (app altair five_fires {["CA"]} None)
    = [("CA", 3%nat, 1%Q); ("TX", 2%nat, (1 # 2)%Q)].
Proof. destruct altair; split; vm_compute; reflexivity. Qed.

Example five_fires_nothing_selected :
  v_line_chart (app Alt.RemapsEmptyString five_fires ∅ None) = []
  ∧ v_bar_chart (app Alt.RemapsEmptyString five_fires ∅ None)
    = [("CA", 3%nat, (1 # 2)%Q); ("TX", 2%nat, (1 # 2)%Q)]
  ∧ v_line_chart (app Alt.IgnoresEmptyString five_fires ∅ None)
    = v_yearly_trends (app Alt.IgnoresEmptyString five_fires ∅ None)
  ∧ v_bar_chart (app Alt.IgnoresEmptyString five_fires ∅ None)
    = [("CA", 3%nat, 1%Q); ("TX", 2%nat, 1%Q)].
Proof. repeat split; vm_compute; reflexivity. Qed.

Example three_fires_durations :
  DURATION_DAYS <$> assign_duration three_fires = [Some 3; Some 1; Some (-5)].
Proof. vm_compute. reflexivity. Qed.

Example three_fires_lower :
  STATE <$> v_data (app Alt.RemapsEmptyString three_fires ∅ None) = [Some "TX"; Some "CA"]
  ∧ v_state_options (app Alt.RemapsEmptyString three_fires ∅ None) = ["All States"; "CA"; "TX"]
  ∧ fst <$> v_lower (app Alt.RemapsEmptyString three_fires ∅ None) = Some "CA".
Proof. repeat split; vm_compute; reflexivity. Qed.

(** On a table without rows line 99 raises. *)
Example no_fire_line_99 (altair : Alt.Release) :
  dt_accessor (assign_region []) = None ∧ v_lower (app altair [] ∅ None) = None.
Proof. split; reflexivity. Qed.

(** For timestamps at midnight, the duration is the difference of the days. *)
Lemma timedelta_days_midnight (c d : Z) :
  Pd.timedelta_days (Some (day c)) (Some (day d)) = Some (c - d).
Proof.
  unfold Pd.timedelta_days, day. simpl. f_equal.
  rewrite <- Z.mul_sub_distr_r. by apply Z.div_mul.
Qed.

(** ** [unique] and the group sizes *)

Section unique.
Context `{EqDecision A}.
Implicit Types l : list A.

Lemma elem_of_unique l x : x ∈ Pd.unique l ↔ x ∈ l.
Proof.
  induction l as [|y l IH]; simpl; [done|].
  rewrite !elem_of_cons, list_elem_of_filter, IH.
  destruct (decide (x = y)); tauto.
Qed.

Lemma NoDup_unique l : NoDup (Pd.unique l).
Proof.
  induction l as [|y l IH]; simpl; [constructor|].
  apply NoDup_cons. split; [|by apply NoDup_filter].
  rewrite list_elem_of_filter. tauto.
Qed.

End unique.

Lemma sum_list_fmap_add {A} (f g : A → nat) (l : list A) :
  sum_list ((λ x, f x + g x)%nat <$> l) = (sum_list (f <$> l) + sum_list (g <$> l))%nat.
Proof. induction l as [|x l IH]; csimpl; lia. Qed.

Lemma filter_fmap {A B} (f : A → B) (P : B → Prop) `{!∀ y, Decision (P y)} (l : list A) :
  filter P (f <$> l) = f <$> filter (λ x, P (f x)) l.
Proof.
  induction l as [|x l IH]; [done|]. csimpl.
  rewrite !filter_cons, IH. destruct (decide (P (f x))); done.
Qed.

Lemma filter_ext_elem_of {A} (P Q : A → Prop)
    `{!∀ x, Decision (P x), !∀ x, Decision (Q x)} (l : list A) :
  (∀ x, x ∈ l → P x ↔ Q x) → filter P l = filter Q l.
Proof.
  induction l as [|x l IH]; intros Hext; [done|].
  rewrite !filter_cons, IH by (intros; apply Hext; by right).
  destruct (decide (P x)) as [HP|HP], (decide (Q x)) as [HQ|HQ]; try done.
  - apply Hext in HP; [done | left].
  - apply Hext in HQ; [done | left].
Qed.

Section groupby.
Context `{EqDecision K} (le : relation K) `{!RelDecision le}.
Context (key : Row → option K).
Implicit Types (df : DataFrame) (k : K) (ks : list K) (n : nat).

Lemma key_sat_spec (P : K → Prop) r : key_sat key P r ↔ ∃ k, key r = Some k ∧ P k.
Proof.
  unfold key_sat. destruct (key r) as [k0|].
  - split; [eauto|]. by intros (k & [= ->] & Hk).
  - split; [done|]. by intros (k & [=] & _).
Qed.

Lemma group_size_cons r df k :
  Pd.group_size key (r :: df) k = (hit key r k + Pd.group_size key df k)%nat.
Proof.
  unfold Pd.group_size, hit. rewrite filter_cons.
  destruct (decide (key r = Some k)); reflexivity.
Qed.

Lemma sum_hit_miss r ks :
  ¬ key_sat key (.∈ ks) r → sum_list (hit key r <$> ks) = 0%nat.
Proof.
  rewrite key_sat_spec. intros Hmiss.
  induction ks as [|k ks IH]; csimpl; [done|].
  rewrite IH.
  - unfold hit. rewrite decide_False; [done|].
    intros Hk. apply Hmiss. exists k. split; [done | left].
  - intros (k' & Hk' & Hin). apply Hmiss. exists k'. split; [done | by right].
Qed.

Lemma sum_hit r ks :
  NoDup ks →
  sum_list (hit key r <$> ks)
  = if decide (key_sat key (.∈ ks) r) then 1%nat else 0%nat.
Proof.
  intros Hnd. destruct (decide (key_sat key (.∈ ks) r)) as [Hin|Hout];
    [|by apply sum_hit_miss].
  apply key_sat_spec in Hin as (k0 & Hk0 & Hin).
  induction Hnd as [|k ks Hk Hnd IH]; [inversion Hin|]. csimpl.
  apply elem_of_cons in Hin as [<-|Hin].
  - rewrite sum_hit_miss.
    + unfold hit. by rewrite decide_True.
    + rewrite key_sat_spec. intros (k' & Hk' & Hin'). congruence.
  - rewrite IH by done. unfold hit. rewrite decide_False; [done|].
    congruence.
Qed.

(** Summing the sizes of distinct groups counts the rows of those groups. *)
Lemma sum_group_size df ks :
  NoDup ks →
  sum_list (Pd.group_size key df <$> ks) = length (filter (key_sat key (.∈ ks)) df).
Proof.
  intros Hnd. induction df as [|r df IH].
  - clear Hnd. induction ks as [|k ks IHks]; csimpl; [done|].
    by rewrite IHks.
  - rewrite (list_fmap_ext (Pd.group_size key (r :: df))
               (λ k, hit key r k + Pd.group_size key df k)%nat ks)
      by (intros; apply group_size_cons).
    rewrite sum_list_fmap_add, IH, sum_hit, filter_cons by done.
    destruct (decide (key_sat key (.∈ ks) r)); reflexivity.
Qed.

(** ** What [groupby(...).size()] returns *)

Lemma groupby_size_keys df :
  Pd.groupby_size le key df
  = (λ k, (k, Pd.group_size key df k)) <$> group_keys le key df.
Proof. reflexivity. Qed.

Lemma elem_of_group_keys df k :
  k ∈ group_keys le key df ↔ ∃ r, r ∈ df ∧ key r = Some k.
Proof.
  unfold group_keys.
  by rewrite merge_sort_Permutation, elem_of_unique, list_elem_of_omap.
Qed.

Lemma NoDup_group_keys df : NoDup (group_keys le key df).
Proof. unfold group_keys. rewrite merge_sort_Permutation. apply NoDup_unique. Qed.

(** A row [(k, n)] of the result: [k] is the key of some row of the table,
    and [n] is the number of rows with that key. *)
Lemma elem_of_groupby_size df k n :
  (k, n) ∈ Pd.groupby_size le key df ↔
  n = length (filter (λ r, key r = Some k) df) ∧ ∃ r, r ∈ df ∧ key r = Some k.
Proof.
  rewrite groupby_size_keys, list_elem_of_fmap.
  setoid_rewrite <- elem_of_group_keys. split.
  - intros (k' & [= -> ->] & Hin). done.
  - intros [-> Hin]. by exists k.
Qed.

(** Each key has one row at most. *)
Lemma NoDup_groupby_size_keys df : NoDup (Pd.groupby_size le key df).*1.
Proof.
  rewrite groupby_size_keys, <- list_fmap_compose.
  rewrite (list_fmap_ext _ id (group_keys le key df)) by done.
  rewrite list_fmap_id. apply NoDup_group_keys.
Qed.

(** The counts of the result rows whose key satisfies [P] add up to the
    number of rows of the table whose key is present and satisfies [P]. *)
Lemma sum_groupby_size (P : K → Prop) `{!∀ k, Decision (P k)} df :
  sum_list ((filter (λ e, P e.1) (Pd.groupby_size le key df)).*2) =
  length (filter (key_sat key P) df).
Proof.
  rewrite groupby_size_keys, filter_fmap, <- list_fmap_compose. simpl.
  rewrite (list_fmap_ext _ (Pd.group_size key df) (filter P (group_keys le key df)))
    by done.
  rewrite sum_group_size by (apply NoDup_filter, NoDup_group_keys).
  f_equal. apply filter_ext_elem_of. intros r Hr.
  rewrite !key_sat_spec. setoid_rewrite list_elem_of_filter.
  setoid_rewrite elem_of_group_keys. split.
  - intros (k & Hk & HP & _). eauto.
  - intros (k & Hk & HP). exists k. eauto.
Qed.

End groupby.

(** Assigning a column that is not a key column changes no aggregate. *)
Lemma groupby_size_fmap `{EqDecision K} (le : relation K) `{!RelDecision le}
    (key : Row → option K) (f : Row → Row) (df : DataFrame) :
  (∀ r, key (f r) = key r) →
  Pd.groupby_size le key (f <$> df) = Pd.groupby_size le key df.
Proof.
  intros Hkey. unfold Pd.groupby_size.
  assert (omap key (f <$> df) = omap key df) as ->.
  { induction df as [|r df IH]; [done|]. csimpl. by rewrite Hkey, IH. }
  apply list_fmap_ext. intros _ k _. f_equal.
  unfold Pd.group_size. rewrite filter_fmap, length_fmap. f_equal.
  apply filter_ext_elem_of. intros r _. by rewrite Hkey.
Qed.

Lemma state_counts_assign_region csv :
  state_counts (assign_region csv) = state_counts csv.
Proof. by apply groupby_size_fmap. Qed.

Lemma yearly_trends_assign_region csv :
  yearly_trends (assign_region csv) = yearly_trends csv.
Proof. by apply groupby_size_fmap. Qed.

Lemma year_state_key_Some r y s :
  year_state_key r = Some (y, s) ↔ FIRE_YEAR r = Some y ∧ STATE r = Some s.
Proof.
  unfold year_state_key. destruct (FIRE_YEAR r), (STATE r); simpl;
    split; try (intros [??]); try intros [=]; by simplify_eq.
Qed.

Lemma length_filter_pos {A} (P : A → Prop) `{!∀ x, Decision (P x)} (l : list A) :
  (0 < length (filter P l))%nat ↔ ∃ x, x ∈ l ∧ P x.
Proof.
  split.
  - destruct (filter P l) as [|x l'] eqn:Hf; simpl; [lia|]. intros _.
    assert (x ∈ filter P l) as Hx by (rewrite Hf; left).
    apply list_elem_of_filter in Hx as [??]. eauto.
  - intros (x & Hx & HP).
    assert (x ∈ filter P l) as Hin by (by apply list_elem_of_filter).
    destruct (filter P l); [inversion Hin | simpl; lia].
Qed.

Lemma length_filter_split {A} (P Q1 Q2 : A → Prop)
    `{!∀ x, Decision (P x), !∀ x, Decision (Q1 x), !∀ x, Decision (Q2 x)}
    (l : list A) :
  (∀ x, (P x ↔ Q1 x ∨ Q2 x) ∧ ¬ (Q1 x ∧ Q2 x)) →
  length (filter P l) = (length (filter Q1 l) + length (filter Q2 l))%nat.
Proof.
  intros Hsplit. induction l as [|x l IH]; [done|].
  rewrite !filter_cons. destruct (Hsplit x) as [Hiff Hex].
  destruct (decide (P x)), (decide (Q1 x)), (decide (Q2 x));
    simpl; rewrite ?IH; try lia; tauto.
Qed.

(** ** The region table *)

Lemma dom_state_to_region : dom state_to_region = list_to_set listed_states.
Proof. vm_compute. reflexivity. Qed.

Lemma state_to_region_listed :
  Forall (λ s, is_Some (state_to_region !! s) ∧
               Forall (λ e, s ∈ e.2 ↔ state_to_region !! s = Some e.1) region_map)
         listed_states.
Proof. compute_done. Qed.

(** ** [list.index] *)

Lemma index_Some x l i : Py.index x l = Some i → l !! i = Some x.
Proof.
  revert i. induction l as [|y l IH]; intros i; simpl; [done|].
  destruct (decide (y = x)) as [->|_].
  - by intros [= <-].
  - destruct (Py.index x l) as [j|]; simpl; [|done].
    intros [= <-]. by apply IH.
Qed.

Lemma index_None x l : Py.index x l = None ↔ x ∉ l.
Proof.
  induction l as [|y l IH]; simpl.
  - split; [|done]. intros _ Hin. inversion Hin.
  - rewrite not_elem_of_cons. destruct (decide (y = x)) as [->|Hne].
    + split; [done|]. by intros [? _].
    + destruct (Py.index x l); simpl.
      * split; [done|]. intros [_ Hout]. by apply IH in Hout.
      * split; [|done]. intros _. split; [done|]. by apply IH.
Qed.

Lemma filter_all {A} (P : A → Prop) `{!∀ x, Decision (P x)} (l : list A) :
  (∀ x, x ∈ l → P x) → filter P l = l.
Proof.
  induction l as [|x l IH]; intros HP; [done|].
  rewrite filter_cons_True by (apply HP; left).
  f_equal. apply IH. intros y Hy. apply HP. by right.
Qed.

Lemma filter_none {A} (P : A → Prop) `{!∀ x, Decision (P x)} (l : list A) :
  (∀ x, x ∈ l → ¬ P x) → filter P l = [].
Proof.
  induction l as [|x l IH]; intros HP; [done|].
  rewrite filter_cons_False by (apply HP; left).
  apply IH. intros y Hy. apply HP. by right.
Qed.

(** * The claims *)

(** ** Count aggregates *)

(** C5: the Fire_Count column of [state_counts] adds up to the number of
    rows of the table whose STATE is present. *)
Theorem state_counts_sum (altair : Alt.Release) (csv : DataFrame)
    (selected : gset string) (picked : option string) :
  sum_list (v_state_counts (app altair csv selected picked)).*2 =
  length (filter (λ r, is_Some (STATE r)) csv).
Proof.
  cbn [app v_state_counts]. rewrite state_counts_assign_region.
  unfold state_counts.
  pose proof (sum_groupby_size String.le STATE (λ _, True) csv) as Hsum.
  rewrite filter_all in Hsum by done. rewrite Hsum.
  f_equal. apply filter_ext_elem_of. intros r _.
  rewrite key_sat_spec. unfold is_Some. split.
  - intros (s & Hs & _). eauto.
  - intros (s & Hs). eauto.
Qed.

(** C4 as stated fails on [fire_without_year]: [state_counts] counts the
    fire for CA, [yearly_trends] has no row for it. *)
Lemma year_sum_misses_fire_without_year :
  ¬ (∀ s n,
       (s, n) ∈ v_state_counts (app Alt.RemapsEmptyString fire_without_year ∅ None) →
       sum_list (filter (λ e, e.1.2 = s)
                   (v_yearly_trends
                      (app Alt.RemapsEmptyString fire_without_year ∅ None))).*2 = n).
Proof.
  intros Hclaim. specialize (Hclaim "CA" 1%nat).
  assert (v_state_counts (app Alt.RemapsEmptyString fire_without_year ∅ None)
          = [("CA", 1%nat)]) as Hcounts
    by (vm_compute; reflexivity).
  rewrite Hcounts in Hclaim. specialize (Hclaim ltac:(left)).
  vm_compute in Hclaim. discriminate.
Qed.

(** C4, amended: for a state with a row [(s, n)] in [state_counts], the
    counts of the [yearly_trends] rows of that state, together with the
    number of fires of that state whose FIRE_YEAR is missing, add up to [n]. *)
Theorem year_sum_state_count (altair : Alt.Release) (csv : DataFrame) (selected : gset string)
    (picked : option string) (s : string) (n : nat) :
  (s, n) ∈ v_state_counts (app altair csv selected picked) →
  (sum_list (filter (λ e, e.1.2 = s)
               (v_yearly_trends (app altair csv selected picked))).*2
   + length (filter (λ r, STATE r = Some s ∧ FIRE_YEAR r = None) csv))%nat = n.
Proof.
  cbn [app v_state_counts v_yearly_trends].
  rewrite state_counts_assign_region, yearly_trends_assign_region.
  unfold state_counts, yearly_trends. rewrite elem_of_groupby_size.
  intros [-> _].
  pose proof (sum_groupby_size year_state_le year_state_key (λ k, k.2 = s) csv)
    as Hsum.
  cbv beta in Hsum. rewrite Hsum. clear Hsum.
  symmetry. apply length_filter_split. intros r.
  rewrite key_sat_spec. split.
  - split.
    + intros Hs. destruct (FIRE_YEAR r) as [y|] eqn:Hy; [left | by right].
      exists (y, s). by rewrite year_state_key_Some.
    + intros [((y & s') & Hk & Heq)|[? _]]; [|done].
      apply year_state_key_Some in Hk as [_ Hs]. simpl in Heq. by subst.
  - intros [((y & s') & Hk & _) [_ Hy]].
    apply year_state_key_Some in Hk as [Hy' _]. congruence.
Qed.

(** The amended C4 on [fire_without_year]: no yearly row and one fire
    without a year make up the count 1 of CA. *)
Lemma year_sum_state_count_witness :
  (sum_list (filter (λ e, e.1.2 = "CA")
               (v_yearly_trends (app Alt.RemapsEmptyString fire_without_year ∅ None))).*2
   + length (filter (λ r, STATE r = Some "CA" ∧ FIRE_YEAR r = None)
               fire_without_year))%nat = 1%nat.
Proof.
  apply (year_sum_state_count Alt.RemapsEmptyString fire_without_year ∅ None "CA" 1).
  vm_compute. left.
Defined.

(** C3: both count aggregates are taken over every row of the table as it
    was read: a row of the result holds the number of all rows of [csv] with
    that key, whatever their dates, size and cause are, and whether or not
    the data-quality filter of lines 99-101 keeps them in [data]. *)
Theorem counts_over_all_rows (altair : Alt.Release) (csv : DataFrame) (selected : gset string)
    (picked : option string) :
  v_state_counts (app altair csv selected picked) = state_counts csv
  ∧ v_yearly_trends (app altair csv selected picked) = yearly_trends csv
  ∧ (∀ s n, (s, n) ∈ v_state_counts (app altair csv selected picked) ↔
       n = length (filter (λ r, STATE r = Some s) csv) ∧ (0 < n)%nat)
  ∧ (∀ y s n, ((y, s), n) ∈ v_yearly_trends (app altair csv selected picked) ↔
       n = length (filter (λ r, FIRE_YEAR r = Some y ∧ STATE r = Some s) csv)
       ∧ (0 < n)%nat).
Proof.
  cbn [app v_state_counts v_yearly_trends].
  rewrite state_counts_assign_region, yearly_trends_assign_region.
  split; [done|]. split; [done|]. split.
  - intros s n. unfold state_counts. rewrite elem_of_groupby_size.
    split.
    + intros [-> Hex]. split; [done|]. by apply length_filter_pos.
    + intros [-> Hpos]. split; [done|]. by apply length_filter_pos in Hpos.
  - intros y s n. unfold yearly_trends. rewrite elem_of_groupby_size.
    assert (filter (λ r, year_state_key r = Some (y, s)) csv
            = filter (λ r, FIRE_YEAR r = Some y ∧ STATE r = Some s) csv) as ->.
    { apply filter_ext_elem_of. intros r _. apply year_state_key_Some. }
    setoid_rewrite year_state_key_Some. split.
    + intros [-> Hex]. split; [done|]. by apply length_filter_pos.
    + intros [-> Hpos]. split; [done|]. by apply length_filter_pos in Hpos.
Qed.

(** ** The selection shared by the two charts *)

Lemma test_click_selection (altair : Alt.Release) (selected : gset string) (s : string) :
  Alt.test (click_selection altair) selected s = bool_decide (passes altair selected s).
Proof.
  unfold Alt.test, passes. destruct (decide (selected = ∅)) as [->|Hne].
  - destruct altair; simpl; symmetry.
    + apply bool_decide_eq_false. intros [Hin|[_ [=]]].
      by apply not_elem_of_empty in Hin.
    + apply bool_decide_eq_true. by right.
  - apply bool_decide_ext. split; [by left|]. by intros [?|[? _]].
Qed.

Lemma passes_selected (altair : Alt.Release) (selected : gset string) (s : string) :
  selected ≠ ∅ ∨ altair = Alt.RemapsEmptyString →
  passes altair selected s ↔ s ∈ selected.
Proof.
  unfold passes. intros Hcase. split; [|by left].
  intros [?|[-> ->]]; [done|]. by destruct Hcase.
Qed.

Lemma passes_nothing_ignored (s : string) : passes Alt.IgnoresEmptyString ∅ s.
Proof. by right. Qed.

Lemma line_chart_passes (altair : Alt.Release) (trends : list ((Z * string) * nat))
    (selected : gset string) :
  line_chart (click_selection altair) trends selected
  = filter (λ d, passes altair selected d.1.2) trends.
Proof.
  unfold line_chart, Alt.transform_filter. apply filter_ext_elem_of.
  intros d _. by rewrite test_click_selection, bool_decide_eq_true.
Qed.

Lemma bar_chart_passes (altair : Alt.Release) (counts : list (string * nat))
    (selected : gset string) :
  bar_chart (click_selection altair) counts selected
  = (λ e, (e.1, e.2, if decide (passes altair selected e.1) then 1%Q else (1 # 2)%Q))
      <$> counts.
Proof.
  unfold bar_chart. apply list_fmap_ext. intros _ [s n] _. simpl.
  unfold Alt.condition. rewrite test_click_selection.
  destruct (decide (passes altair selected s)).
  - by rewrite bool_decide_true.
  - by rewrite bool_decide_false.
Qed.

(** The line chart under each release: with a non-empty selection it has the
    rows of [yearly_trends] whose state is selected, and no other, so with
    only CA selected the rows of state CA; with nothing selected it has no
    row under a release that reads [empty="none"] as [empty=False], and
    every row of [yearly_trends] under a release that ignores the string. *)
Lemma line_chart_rows (altair : Alt.Release) (csv : DataFrame) (picked : option string) :
  (∀ selected : gset string, selected ≠ ∅ →
     v_line_chart (app altair csv selected picked)
     = filter (λ d, d.1.2 ∈ selected) (yearly_trends csv))
  ∧ v_line_chart (app altair csv {["CA"]} picked)
    = filter (λ d, d.1.2 = "CA") (yearly_trends csv)
  ∧ v_line_chart (app Alt.RemapsEmptyString csv ∅ picked) = []
  ∧ v_line_chart (app Alt.IgnoresEmptyString csv ∅ picked) = yearly_trends csv.
Proof.
  assert (∀ altair selected,
            v_line_chart (app altair csv selected picked)
            = filter (λ d, passes altair selected d.1.2) (yearly_trends csv)) as Hrows.
  { intros a selected. cbn [app v_line_chart].
    by rewrite yearly_trends_assign_region, line_chart_passes. }
  split; [|split; [|split]].
  - intros selected Hne. rewrite Hrows. apply filter_ext_elem_of. intros d _.
    apply passes_selected. by left.
  - rewrite Hrows. apply filter_ext_elem_of. intros d _.
    rewrite passes_selected, elem_of_singleton; [done|].
    left. apply non_empty_singleton_L.
  - rewrite Hrows. apply filter_none. intros d _.
    rewrite passes_selected by (by right). apply not_elem_of_empty.
  - rewrite Hrows. apply filter_all. intros d _. apply passes_nothing_ignored.
Qed.

(** C1 fails under a release that ignores [empty="none"]: with nothing
    selected the line chart of [five_fires] has all three rows of
    [yearly_trends], where the claim, and the [empty="none"] of line 45,
    want none. *)
Theorem line_chart_none_ignored :
  v_line_chart (app Alt.IgnoresEmptyString five_fires ∅ None)
  = [((2000, "CA"), 2%nat); ((2000, "TX"), 2%nat); ((2001, "CA"), 1%nat)].
Proof. vm_compute. reflexivity. Qed.

(** C7 as stated fails on [one_fire] with nothing selected, under a release
    that reads [empty="none"] as [empty=False]: the bar of CA has opacity
    0.5. *)
Lemma bar_opacity_nothing_selected :
  ¬ (∀ s n o,
       (s, n, o) ∈ v_bar_chart (app Alt.RemapsEmptyString one_fire ∅ None) →
       o = if decide (s ∈ (∅ : gset string) ∨ (∅ : gset string) = ∅)
           then 1%Q else (1 # 2)%Q).
Proof.
  intros Hclaim. specialize (Hclaim "CA" 1%nat (1 # 2)%Q).
  assert (v_bar_chart (app Alt.RemapsEmptyString one_fire ∅ None)
          = [("CA", 1%nat, (1 # 2)%Q)]) as Hbars
    by (vm_compute; reflexivity).
  rewrite Hbars in Hclaim. specialize (Hclaim ltac:(left)).
  rewrite decide_True in Hclaim by (by right). discriminate.
Qed.

(** C7, amended: when the selection is not empty, or the release applies
    the [empty="none"] of line 45, the bar chart has one bar per row of
    [state_counts], at opacity 1 when its state is selected and at 0.5
    when it is not; with nothing selected that is 0.5 for every bar. *)
Theorem bar_opacity (altair : Alt.Release) (csv : DataFrame) (selected : gset string)
    (picked : option string) :
  selected ≠ ∅ ∨ altair = Alt.RemapsEmptyString →
  v_bar_chart (app altair csv selected picked)
  = (λ e, (e.1, e.2, if decide (e.1 ∈ selected) then 1%Q else (1 # 2)%Q))
      <$> state_counts csv.
Proof.
  intros Hcase. cbn [app v_bar_chart].
  rewrite state_counts_assign_region, bar_chart_passes.
  apply list_fmap_ext. intros _ [s n] _. simpl.
  destruct (decide (passes altair selected s)) as [Hin|Hout],
           (decide (s ∈ selected)) as [Hin'|Hout']; try done.
  - by apply passes_selected in Hin.
  - destruct Hout. by apply passes_selected.
Qed.

(** The amended C7 on [one_fire] with nothing selected, under a release
    that applies [empty="none"]: the bar of CA is at 0.5. *)
Lemma bar_opacity_witness :
  v_bar_chart (app Alt.RemapsEmptyString one_fire ∅ None) = [("CA", 1%nat, (1 # 2)%Q)].
Proof.
  etrans.
  - apply (bar_opacity Alt.RemapsEmptyString one_fire ∅ None).
    right. reflexivity.
  - vm_compute. reflexivity.
Defined.

(** Under a release that ignores [empty="none"], every bar is at opacity 1
    while nothing is selected. *)
Lemma bar_opacity_none_ignored (csv : DataFrame) (picked : option string) :
  v_bar_chart (app Alt.IgnoresEmptyString csv ∅ picked)
  = (λ e, (e.1, e.2, 1%Q)) <$> state_counts csv.
Proof.
  cbn [app v_bar_chart]. rewrite state_counts_assign_region, bar_chart_passes.
  apply list_fmap_ext. intros _ [s n] _. simpl.
  rewrite decide_True; [done|]. apply passes_nothing_ignored.
Qed.

(** ** Duration and the data-quality filter *)

Lemma duration_ge_0_true r :
  duration_ge_0 r = true ↔ ∃ d, DURATION_DAYS r = Some d ∧ (0 ≤ d)%Z.
Proof.
  unfold duration_ge_0. destruct (DURATION_DAYS r) as [d|].
  - rewrite bool_decide_eq_true. split; [eauto|]. by intros (d' & [= <-] & ?).
  - split; [done|]. by intros (d & [=] & _).
Qed.

Lemma with_duration_filter data :
  with_duration data = filter survives (assign_duration data).
Proof.
  unfold with_duration, nonneg_duration, dropna_subset.
  rewrite list_filter_filter. apply filter_ext_elem_of. intros r _.
  rewrite duration_ge_0_true. unfold survives, is_Some. split.
  - intros [Hd (_ & Hsize & Hcause)]. eauto.
  - intros (Hsize & Hcause & d & Hd & Hpos). eauto 10.
Qed.

Lemma elem_of_assign_duration data r :
  r ∈ assign_duration data →
  DURATION_DAYS r = Pd.timedelta_days (CONTAINMENT_DATE r) (DISCOVERY_DATE r).
Proof.
  unfold assign_duration. rewrite list_elem_of_fmap. by intros (r0 & -> & _).
Qed.

(** C2: after lines 99-101, [data] holds the rows (with their duration
    column) whose duration, size and cause are present and whose duration is
    not negative, and drops every other row; each row kept has both dates,
    and its DURATION_DAYS is the containment date minus the discovery date,
    floored to whole days, and is at least 0. *)
Theorem duration_filter (altair : Alt.Release) (csv : DataFrame)
    (selected : gset string) (picked : option string) :
  v_data (app altair csv selected picked) = filter survives (assign_duration (assign_region csv))
  ∧ Forall (λ r, ∃ c d,
              CONTAINMENT_DATE r = Some c ∧ DISCOVERY_DATE r = Some d
              ∧ DURATION_DAYS r = Some ((c - d) `div` Pd.ns_per_day)
              ∧ (0 ≤ (c - d) `div` Pd.ns_per_day)%Z)
           (v_data (app altair csv selected picked))
  ∧ (∀ r, r ∈ assign_duration (assign_region csv) →
          DURATION_DAYS r = None ∨ FIRE_SIZE r = None ∨ STAT_CAUSE_DESCR r = None
          ∨ (∃ d, DURATION_DAYS r = Some d ∧ (d < 0)%Z) →
          r ∉ v_data (app altair csv selected picked)).
Proof.
  cbn [app v_data]. rewrite with_duration_filter. split; [done|]. split.
  - apply Forall_forall. intros r [Hkeep Hr]%list_elem_of_filter.
    apply elem_of_assign_duration in Hr.
    destruct Hkeep as (_ & _ & n & Hn & Hpos). rewrite Hn in Hr.
    unfold Pd.timedelta_days in Hr.
    destruct (CONTAINMENT_DATE r) as [c|]; [|done].
    destruct (DISCOVERY_DATE r) as [d|]; [|done].
    simpl in Hr. injection Hr as ->. by exists c, d.
  - intros r _ Hbad [(Hsize & Hcause & d & Hd & Hpos) _]%list_elem_of_filter.
    destruct Hbad as [Hnone|[Hnone|[Hnone|(d' & Hd' & Hneg)]]].
    + congruence.
    + rewrite Hnone in Hsize. by destruct Hsize.
    + rewrite Hnone in Hcause. by destruct Hcause.
    + rewrite Hd in Hd'. injection Hd' as <-. lia.
Qed.

(** ** The dropdown and the filtered view *)

(** On a table without rows, where line 99 raises, line 106 would raise as
    well: past lines 99-106 the script has the value of the dropdown and
    the view it selects, or has stopped. *)
Lemma v_lower_app (altair : Alt.Release) (csv : DataFrame) (selected : gset string)
    (picked : option string) :
  v_lower (app altair csv selected picked)
  = (v ← selected_state (state_options (with_duration (assign_region csv))) picked;
     Some (v, scatter_data (with_duration (assign_region csv)) v)).
Proof. cbn [app v_lower]. by destruct csv. Qed.

(** C8: once the dropdown has the value [v], the strip and box charts get
    all of [data] (the rows that passed the filter of lines 99-101) when [v]
    is "All States", and the rows of [data] whose STATE is [v] otherwise. *)
Theorem scatter_data_rows (altair : Alt.Release) (csv : DataFrame) (selected : gset string)
    (picked : option string) (v : string) (rows : DataFrame) :
  v_lower (app altair csv selected picked) = Some (v, rows) →
  (v = "All States" → rows = v_data (app altair csv selected picked))
  ∧ (v ≠ "All States" →
     rows = filter (λ r, STATE r = Some v) (v_data (app altair csv selected picked))).
Proof.
  rewrite v_lower_app. cbn [app v_data].
  destruct (selected_state _ picked) as [v'|]; simpl; [|done].
  intros [= -> <-]. unfold scatter_data, All_States. split; intros Hv.
  - by rewrite decide_True.
  - by rewrite decide_False.
Qed.

(** C8 on [three_fires] with the dropdown set to "All States". *)
Lemma scatter_data_rows_witness :
  ("All States" = "All States" →
   v_data (app Alt.RemapsEmptyString three_fires ∅ (Some "All States"))
   = v_data (app Alt.RemapsEmptyString three_fires ∅ (Some "All States")))
  ∧ ("All States" ≠ "All States" →
     v_data (app Alt.RemapsEmptyString three_fires ∅ (Some "All States"))
     = filter (λ r, STATE r = Some "All States")
         (v_data (app Alt.RemapsEmptyString three_fires ∅ (Some "All States")))).
Proof.
  apply (scatter_data_rows Alt.RemapsEmptyString three_fires ∅ (Some "All States")).
  vm_compute. reflexivity.
Defined.

(** The value the user picked is the dropdown's value whenever line 106
    does not raise. *)
Lemma selected_state_picked (options : list string) (c : string) :
  "CA" ∈ options → c ∈ options → selected_state options (Some c) = Some c.
Proof.
  intros HCA Hc. unfold selected_state.
  destruct (Py.index "CA" options) as [i|] eqn:Hi.
  - apply index_Some in Hi. simpl. unfold selectbox. rewrite Hi. simpl.
    by rewrite decide_True.
  - by apply index_None in Hi.
Qed.

(** C9: the options are "All States" followed by the state codes that occur
    in [data] after the filter of lines 99-101, each once, in ascending
    order; a state none of whose fires passed the filter is no option. *)
Theorem state_options_codes (altair : Alt.Release) (csv : DataFrame) (selected : gset string)
    (picked : option string) :
  ∃ codes,
    v_state_options (app altair csv selected picked) = "All States" :: codes
    ∧ StronglySorted String.le codes
    ∧ NoDup codes
    ∧ (∀ s, s ∈ codes ↔
            ∃ r, r ∈ v_data (app altair csv selected picked) ∧ STATE r = Some s)
    ∧ (∀ s, (∀ r, r ∈ assign_duration (assign_region csv) →
                  STATE r = Some s → ¬ survives r) →
            s ∉ codes).
Proof.
  cbn [app v_state_options v_data].
  set (data := with_duration (assign_region csv)).
  exists (Py.sorted (Pd.unique (Pd.dropna (STATE <$> data)))).
  assert (∀ s, s ∈ Py.sorted (Pd.unique (Pd.dropna (STATE <$> data))) ↔
               ∃ r, r ∈ data ∧ STATE r = Some s) as Hcodes.
  { intros s. unfold Py.sorted, Pd.dropna.
    rewrite merge_sort_Permutation, elem_of_unique, list_elem_of_omap.
    setoid_rewrite list_elem_of_fmap. split.
    - intros (o & (r & -> & Hr) & Ho). eauto.
    - intros (r & Hr & Hs). exists (STATE r). eauto. }
  split; [done|]. split; [|split; [|split]].
  - apply StronglySorted_merge_sort; apply _.
  - unfold Py.sorted. rewrite merge_sort_Permutation. apply NoDup_unique.
  - done.
  - intros s Hdropped [r [Hr Hs]]%Hcodes.
    unfold data in Hr. rewrite with_duration_filter in Hr.
    apply list_elem_of_filter in Hr as [Hkeep Hr].
    by apply (Hdropped r).
Qed.

(** C10: the dropdown starts at "CA", which is not the entry "All States",
    provided "CA" is one of the options; when it is not, the dropdown gets
    no value whatever the user picked: line 106 raises (or, on a table
    without rows, line 99 has raised before). *)
Theorem dropdown_initial_value (altair : Alt.Release) (csv : DataFrame) (selected : gset string) :
  "CA" ≠ All_States
  ∧ ("CA" ∈ v_state_options (app altair csv selected None) →
     fst <$> v_lower (app altair csv selected None) = Some "CA")
  ∧ ("CA" ∉ v_state_options (app altair csv selected None) →
     ∀ picked, v_lower (app altair csv selected picked) = None).
Proof.
  split; [done|]. setoid_rewrite v_lower_app. cbn [app v_state_options].
  set (options := state_options _). unfold selected_state.
  destruct (Py.index "CA" options) as [i|] eqn:Hi.
  - split.
    + intros _. apply index_Some in Hi. simpl. unfold selectbox.
      by rewrite Hi.
    + intros Hout. apply index_None in Hout. congruence.
  - split.
    + intros Hin. by apply index_None in Hi.
    + done.
Qed.

(** ** The region column *)

(** C6: the table has 9 regions, with distinct names, and lists 51 distinct
    state codes, DC among them.  A listed code is mapped to a region of the
    table, and that region is the one and only region that lists it; a code
    that is not listed is mapped to the missing value, and so is a missing
    code: the lookup never fails. *)
Theorem region_of_state :
  length region_map = 9%nat
  ∧ NoDup region_map.*1
  ∧ length listed_states = 51%nat
  ∧ NoDup listed_states
  ∧ "DC" ∈ listed_states
  ∧ (∀ s, s ∈ listed_states →
       ∃ region, Pd.map_dict state_to_region (Some s) = Some region
                 ∧ region ∈ region_map.*1
                 ∧ ∀ e, e ∈ region_map → s ∈ e.2 ↔ e.1 = region)
  ∧ (∀ s, s ∉ listed_states → Pd.map_dict state_to_region (Some s) = None)
  ∧ Pd.map_dict state_to_region None = None
  ∧ (∀ csv r, r ∈ assign_region csv →
       REGION r = Pd.map_dict state_to_region (STATE r)).
Proof.
  split; [done|]. split; [compute_done|]. split; [done|].
  split; [compute_done|]. split; [compute_done|].
  split; [|split; [|split; [done|]]].
  - intros s Hs.
    destruct (proj1 (Forall_forall _ _) state_to_region_listed s Hs)
      as [[region Hregion] Hlisted].
    rewrite Forall_forall in Hlisted.
    exists region. split; [done|]. split.
    + unfold listed_states in Hs.
      apply list_elem_of_join in Hs as (states & Hin & Hstates).
      apply list_elem_of_fmap in Hstates as (e & -> & He).
      apply list_elem_of_fmap. exists e. split; [|done].
      apply (Hlisted e He) in Hin. congruence.
    + intros e He. rewrite (Hlisted e He), Hregion.
      split; [by intros [= ->] | by intros ->].
  - intros s Hs. change (state_to_region !! s = None). apply not_elem_of_dom.
    rewrite dom_state_to_region. by rewrite elem_of_list_to_set.
  - intros csv r (r0 & -> & _)%list_elem_of_fmap. done.
Qed.

(** * Further properties of the script *)

(** ** Order of the aggregates *)

#[global] Instance year_state_le_trans : Transitive year_state_le.
Proof.
  intros [y1 s1] [y2 s2] [y3 s3]. unfold year_state_le. simpl.
  intros [Hlt|[-> Hle]] [Hlt'|[-> Hle']]; try (left; lia); try (by left).
  right. split; [done|]. by trans s2.
Qed.

#[global] Instance year_state_le_total : Total year_state_le.
Proof.
  intros [y1 s1] [y2 s2]. unfold year_state_le. simpl.
  destruct (Z.lt_trichotomy y1 y2) as [?|[->|?]]; [by left; left| |by right; left].
  destruct (total String.le s1 s2); [left | right]; by right.
Qed.

(** X1: the bar chart has a bar for each state code that occurs in the
    table and for nothing else, one bar per state code, in ascending order
    of state code (lines 40 and 52-53). *)
Theorem bars_ascending (altair : Alt.Release) (csv : DataFrame) (selected : gset string)
    (picked : option string) :
  StronglySorted String.le ((λ b, b.1.1) <$> v_bar_chart (app altair csv selected picked))
  ∧ NoDup ((λ b, b.1.1) <$> v_bar_chart (app altair csv selected picked))
  ∧ (∀ s, s ∈ (λ b, b.1.1) <$> v_bar_chart (app altair csv selected picked) ↔
          ∃ r, r ∈ csv ∧ STATE r = Some s).
Proof.
  assert ((λ b : string * nat * Q, b.1.1) <$> v_bar_chart (app altair csv selected picked)
          = group_keys String.le STATE csv) as ->.
  { cbn [app v_bar_chart]. rewrite state_counts_assign_region.
    unfold bar_chart, state_counts. rewrite groupby_size_keys.
    rewrite <- !list_fmap_compose.
    rewrite (list_fmap_ext _ id (group_keys String.le STATE csv)) by done.
    apply list_fmap_id. }
  split; [|split; [apply NoDup_group_keys|]].
  - unfold group_keys. apply StronglySorted_merge_sort; apply _.
  - intros s. apply elem_of_group_keys.
Qed.

(** X2: [yearly_trends] has a row for each pair of year and state code that
    occurs in a row of the table and for nothing else, one row per pair, in
    ascending order of year and, within a year, of state code (line 66). *)
Theorem yearly_trends_ascending (altair : Alt.Release) (csv : DataFrame)
    (selected : gset string) (picked : option string) :
  StronglySorted year_state_le (v_yearly_trends (app altair csv selected picked)).*1
  ∧ NoDup (v_yearly_trends (app altair csv selected picked)).*1
  ∧ (∀ y s, (y, s) ∈ (v_yearly_trends (app altair csv selected picked)).*1 ↔
            ∃ r, r ∈ csv ∧ FIRE_YEAR r = Some y ∧ STATE r = Some s).
Proof.
  cbn [app v_yearly_trends]. rewrite yearly_trends_assign_region.
  unfold yearly_trends.
  assert ((Pd.groupby_size year_state_le year_state_key csv).*1
          = group_keys year_state_le year_state_key csv) as ->.
  { rewrite groupby_size_keys, <- list_fmap_compose.
    rewrite (list_fmap_ext _ id (group_keys year_state_le year_state_key csv)) by done.
    apply list_fmap_id. }
  split; [|split; [apply NoDup_group_keys|]].
  - unfold group_keys. apply StronglySorted_merge_sort; apply _.
  - intros y s. rewrite elem_of_group_keys.
    by setoid_rewrite year_state_key_Some.
Qed.

(** X3: the counts of the points of the line chart add up to the number of
    fires of the table that have a year and whose state passes the
    selection: it is selected, or nothing is selected and the release
    ignores [empty="none"] (lines 45 and 66-79). *)
Theorem line_chart_total (altair : Alt.Release) (csv : DataFrame) (selected : gset string)
    (picked : option string) :
  sum_list (v_line_chart (app altair csv selected picked)).*2
  = length (filter (λ r, is_Some (FIRE_YEAR r)
                         ∧ key_sat STATE (passes altair selected) r) csv).
Proof.
  cbn [app v_line_chart]. rewrite yearly_trends_assign_region, line_chart_passes.
  unfold yearly_trends.
  pose proof (sum_groupby_size year_state_le year_state_key
                (λ k, passes altair selected k.2) csv) as Hsum.
  cbv beta in Hsum. rewrite Hsum. clear Hsum.
  f_equal. apply filter_ext_elem_of. intros r _.
  rewrite !key_sat_spec. unfold is_Some. split.
  - intros ([y s] & [Hy Hs]%year_state_key_Some & Hin). eauto.
  - intros [[y Hy] (s & Hs & Hin)]. exists (y, s).
    by rewrite year_state_key_Some.
Qed.

(** ** The two charts and the selection *)

Lemma filter_sublist_impl {A} (P Q : A → Prop)
    `{!∀ x, Decision (P x), !∀ x, Decision (Q x)} (l : list A) :
  (∀ x, x ∈ l → P x → Q x) → filter P l `sublist_of` filter Q l.
Proof.
  induction l as [|x l IH]; intros Himpl; [done|].
  assert (filter P l `sublist_of` filter Q l) as Hsub
    by (apply IH; intros y Hy; apply Himpl; by right).
  rewrite !filter_cons.
  destruct (decide (P x)) as [HP|HP], (decide (Q x)) as [HQ|HQ].
  - by apply sublist_skip.
  - destruct HQ. apply Himpl; [left | done].
  - by apply sublist_cons.
  - done.
Qed.

Lemma elem_of_bar_chart (altair : Alt.Release) (counts : list (string * nat))
    (selected : gset string) (s : string) (n : nat) :
  (s, n) ∈ counts → passes altair selected s →
  (s, n, 1%Q) ∈ bar_chart (click_selection altair) counts selected.
Proof.
  intros Hin Hsel. rewrite bar_chart_passes. apply list_elem_of_fmap.
  exists (s, n). split; [|done]. simpl. by rewrite decide_True.
Qed.

(** X4: every point of the line chart belongs to a state that has a bar at
    opacity 1, and its count is at most the height of that bar
    (lines 52-79). *)
Theorem line_point_has_bar (altair : Alt.Release) (csv : DataFrame) (selected : gset string)
    (picked : option string) (y : Z) (s : string) (n : nat) :
  ((y, s), n) ∈ v_line_chart (app altair csv selected picked) →
  ∃ m, (s, m, 1%Q) ∈ v_bar_chart (app altair csv selected picked) ∧ (n ≤ m)%nat.
Proof.
  cbn [app v_line_chart v_bar_chart].
  rewrite line_chart_passes, list_elem_of_filter. simpl.
  rewrite yearly_trends_assign_region, state_counts_assign_region.
  unfold yearly_trends, state_counts.
  intros [Hsel [-> (r & Hr & [Hy Hs]%year_state_key_Some)]%elem_of_groupby_size].
  exists (length (filter (λ r, STATE r = Some s) csv)). split.
  - apply elem_of_bar_chart; [|done]. apply elem_of_groupby_size. eauto.
  - apply sublist_length, filter_sublist_impl.
    by intros r' _ [_ ?]%year_state_key_Some.
Qed.

(** X4 on [five_fires] with CA selected: the point of 2000. *)
Lemma line_point_has_bar_witness :
  ∃ m, ("CA", m, 1%Q) ∈ v_bar_chart (app Alt.IgnoresEmptyString five_fires {["CA"]} None)
       ∧ (2 ≤ m)%nat.
Proof.
  apply (line_point_has_bar Alt.IgnoresEmptyString five_fires {["CA"]} None 2000 "CA" 2).
  vm_compute. left.
Defined.

(** X5: from a non-empty selection on, and from the empty one too under a
    release that applies [empty="none"], selecting more states only adds
    lines: the line chart of the selection is part of the line chart of
    every larger selection, rows in the same order (lines 45 and 68-79). *)
Theorem line_chart_grows (altair : Alt.Release) (csv : DataFrame)
    (selected selected' : gset string) (picked : option string) :
  selected ⊆ selected' →
  selected ≠ ∅ ∨ altair = Alt.RemapsEmptyString →
  v_line_chart (app altair csv selected picked)
    `sublist_of` v_line_chart (app altair csv selected' picked).
Proof.
  intros Hsub Hcase. cbn [app v_line_chart]. rewrite !line_chart_passes.
  apply filter_sublist_impl. intros d _ Hd.
  apply passes_selected in Hd; [|done]. left. by apply Hsub.
Qed.

(** X5 on [five_fires], under a release that ignores [empty="none"]: from
    CA selected to CA and TX selected. *)
Lemma line_chart_grows_witness :
  v_line_chart (app Alt.IgnoresEmptyString five_fires {["CA"]} None)
    `sublist_of` v_line_chart (app Alt.IgnoresEmptyString five_fires {["CA"; "TX"]} None).
Proof.
  apply (line_chart_grows Alt.IgnoresEmptyString five_fires {["CA"]} {["CA"; "TX"]} None).
  - apply union_subseteq_l.
  - left. apply non_empty_singleton_L.
Defined.

(** ** The rows that reach the lower charts *)

Lemma div_day_nonneg (c d : Z) : (0 ≤ (c - d) `div` Pd.ns_per_day ↔ d ≤ c)%Z.
Proof.
  assert (0 < Pd.ns_per_day)%Z as Hday by done. split.
  - intros Hdiv. destruct (Z.le_gt_cases d c) as [|Hlt]; [done|].
    assert ((c - d) `div` Pd.ns_per_day < 0)%Z; [|lia].
    apply Z.div_lt_upper_bound; lia.
  - intros Hle. apply Z.div_pos; lia.
Qed.

(** Membership in [data] after lines 99-101, read on the table before. *)
Lemma elem_of_with_duration (data : DataFrame) (r : Row) :
  r ∈ with_duration data ↔
  ∃ r0 c d, r0 ∈ data
    ∧ CONTAINMENT_DATE r0 = Some c ∧ DISCOVERY_DATE r0 = Some d ∧ (d ≤ c)%Z
    ∧ is_Some (FIRE_SIZE r0) ∧ is_Some (STAT_CAUSE_DESCR r0)
    ∧ r = set_DURATION_DAYS (Some ((c - d) `div` Pd.ns_per_day)) r0.
Proof.
  rewrite with_duration_filter, list_elem_of_filter.
  unfold assign_duration. rewrite list_elem_of_fmap. split.
  - intros [(Hsize & Hcause & n & Hn & Hpos) (r0 & -> & Hr0)].
    simpl in *. unfold Pd.timedelta_days in *.
    destruct (CONTAINMENT_DATE r0) as [c|] eqn:Hc; [|done].
    destruct (DISCOVERY_DATE r0) as [d|] eqn:Hd; [|done].
    simpl in Hn. injection Hn as <-.
    apply (proj1 (div_day_nonneg c d)) in Hpos.
    exists r0, c, d. done.
  - intros (r0 & c & d & Hr0 & Hc & Hd & Hle & Hsize & Hcause & ->). split.
    + split; [done|]. split; [done|]. simpl. eexists. split; [done|].
      by apply (proj2 (div_day_nonneg c d)).
    + exists r0. split; [|done]. unfold Pd.timedelta_days. by rewrite Hc, Hd.
Qed.

(** X6: [data] after lines 99-101 holds exactly the rows of the table, with
    their region and duration columns, that have both dates, a containment
    not earlier than the discovery, a size and a cause; comparing the
    floored day count with 0 drops a fire contained before its discovery
    however short the interval (lines 37 and 99-101). *)
Theorem kept_rows (altair : Alt.Release) (csv : DataFrame)
    (selected : gset string) (picked : option string)
    (r : Row) :
  r ∈ v_data (app altair csv selected picked) ↔
  ∃ r0 c d, r0 ∈ csv
    ∧ CONTAINMENT_DATE r0 = Some c ∧ DISCOVERY_DATE r0 = Some d ∧ (d ≤ c)%Z
    ∧ is_Some (FIRE_SIZE r0) ∧ is_Some (STAT_CAUSE_DESCR r0)
    ∧ r = set_DURATION_DAYS (Some ((c - d) `div` Pd.ns_per_day))
            (set_REGION (Pd.map_dict state_to_region (STATE r0)) r0).
Proof.
  cbn [app v_data]. rewrite elem_of_with_duration. unfold assign_region. split.
  - intros (r1 & c & d & (r0 & -> & Hr0)%list_elem_of_fmap & Hrest).
    exists r0, c, d. by split.
  - intros (r0 & c & d & Hr0 & Hrest).
    exists (set_REGION (Pd.map_dict state_to_region (STATE r0)) r0), c, d.
    split; [|exact Hrest]. apply list_elem_of_fmap. by exists r0.
Qed.

Lemma elem_of_state_options (data : DataFrame) (s : string) :
  s ∈ state_options data ↔ s = All_States ∨ ∃ r, r ∈ data ∧ STATE r = Some s.
Proof.
  unfold state_options, Py.sorted, Pd.dropna.
  rewrite elem_of_app, list_elem_of_singleton.
  rewrite merge_sort_Permutation, elem_of_unique, list_elem_of_omap.
  setoid_rewrite list_elem_of_fmap. split.
  - intros [->|(o & (r & -> & Hr) & Ho)]; [by left | right; eauto].
  - intros [->|(r & Hr & Hs)]; [by left | right]. exists (STATE r). eauto.
Qed.



Lemma STATE_with_duration (data : DataFrame) (s : string) :
  filter (λ r, STATE r = Some s) (with_duration data)
    `sublist_of` assign_duration (filter (λ r, STATE r = Some s) data).
Proof.
  assert (assign_duration (filter (λ r, STATE r = Some s) data)
          = filter (λ r, STATE r = Some s) (assign_duration data)) as ->.
  { unfold assign_duration. by rewrite filter_fmap. }
  rewrite with_duration_filter, list_filter_filter.
  apply filter_sublist_impl. by intros r _ [? _].
Qed.

Lemma elem_of_state_codes (data : DataFrame) (s : string) :
  s ∈ tail (state_options data) ↔ ∃ r, r ∈ data ∧ STATE r = Some s.
Proof.
  unfold state_options. simpl. unfold Py.sorted, Pd.dropna.
  rewrite merge_sort_Permutation, elem_of_unique, list_elem_of_omap.
  setoid_rewrite list_elem_of_fmap. split.
  - intros (o & (r & -> & Hr) & Ho). eauto.
  - intros (r & Hr & Hs). exists (STATE r). eauto.
Qed.

(** X8: a state code offered by the dropdown (the options after "All
    States") has a bar in the bar chart and at least one row in the lower
    charts; unless the code is the text "All States" itself, whose view is
    the whole filtered table, these rows are at most as many as the bar is
    high (lines 40, 52 and 99-109). *)
Theorem option_has_bar (altair : Alt.Release) (csv : DataFrame) (selected : gset string)
    (picked : option string) (s : string) :
  s ∈ tail (v_state_options (app altair csv selected picked)) →
  ∃ n o, (s, n, o) ∈ v_bar_chart (app altair csv selected picked)
         ∧ (0 < length (scatter_data (v_data (app altair csv selected picked)) s))%nat
         ∧ (s ≠ "All States" →
            (length (scatter_data (v_data (app altair csv selected picked)) s) ≤ n)%nat).
Proof.
  cbn [app v_state_options v_bar_chart v_data].
  intros (r & Hr & Hs)%elem_of_state_codes.
  set (data := assign_region csv) in *.
  assert (length (filter (λ r, STATE r = Some s) (with_duration data))
          ≤ length (filter (λ r, STATE r = Some s) data))%nat as Hle.
  { etrans; [apply sublist_length, STATE_with_duration|].
    unfold assign_duration. by rewrite length_fmap. }
  assert (0 < length (filter (λ r, STATE r = Some s) (with_duration data)))%nat
    as Hpos by (apply length_filter_pos; eauto).
  exists (length (filter (λ r, STATE r = Some s) data)).
  eexists. split; [|split].
  - unfold bar_chart. apply list_elem_of_fmap.
    exists (s, length (filter (λ r, STATE r = Some s) data)). split; [done|].
    unfold state_counts. apply elem_of_groupby_size. split; [done|].
    apply (proj1 (length_filter_pos (λ r, STATE r = Some s) data)). lia.
  - unfold scatter_data. destruct (decide (s = All_States)); [|done].
    destruct (with_duration data); [inversion Hr | simpl; lia].
  - intros Hne. unfold scatter_data. by rewrite decide_False.
Qed.

(** X8 on [three_fires]: the option TX. *)
Lemma option_has_bar_witness :
  ∃ n o, ("TX", n, o) ∈ v_bar_chart (app Alt.RemapsEmptyString three_fires ∅ None)
         ∧ (0 < length (scatter_data
                          (v_data (app Alt.RemapsEmptyString three_fires ∅ None)) "TX"))%nat
         ∧ ("TX" ≠ "All States" →
            (length (scatter_data
                       (v_data (app Alt.RemapsEmptyString three_fires ∅ None)) "TX")
             ≤ n)%nat).
Proof.
  apply (option_has_bar Alt.RemapsEmptyString three_fires ∅ None "TX").
  vm_compute. right. left.
Defined.

(** X9: when CA is an option, picking any option of the dropdown makes it
    the dropdown's value and hands at least one row to the strip and box
    charts (lines 104-109). *)
Theorem picked_option_shows_rows (altair : Alt.Release) (csv : DataFrame) (selected : gset string)
    (v : string) :
  "CA" ∈ v_state_options (app altair csv selected (Some v)) →
  v ∈ v_state_options (app altair csv selected (Some v)) →
  ∃ rows, v_lower (app altair csv selected (Some v)) = Some (v, rows) ∧ rows ≠ [].
Proof.
  rewrite v_lower_app. cbn [app v_state_options]. intros HCA Hv.
  rewrite (selected_state_picked _ v HCA Hv). simpl.
  eexists. split; [done|]. unfold scatter_data.
  apply elem_of_state_options in HCA as [[=]|(rCA & HrCA & _)].
  destruct (decide (v = All_States)) as [_|Hne].
  - intros Hnil. rewrite Hnil in HrCA. inversion HrCA.
  - apply elem_of_state_options in Hv as [?|(r & Hr & Hs)]; [done|].
    intros Hnil.
    assert (r ∈ filter (λ r, STATE r = Some v)
                  (with_duration (assign_region csv))) as Hin
      by (by apply list_elem_of_filter).
    rewrite Hnil in Hin. inversion Hin.
Qed.

(** X9 on [three_fires]: picking TX. *)
Lemma picked_option_shows_rows_witness :
  ∃ rows, v_lower (app Alt.RemapsEmptyString three_fires ∅ (Some "TX")) = Some ("TX", rows)
          ∧ rows ≠ [].
Proof.
  apply (picked_option_shows_rows Alt.RemapsEmptyString three_fires ∅ "TX").
  - vm_compute. right. left.
  - vm_compute. do 2 right. left.
Defined.

(** X10: whatever the dropdown's value, every row handed to the strip and
    box charts is a row of the filtered [data], in the same order, with a
    cause, a size and a duration that is not negative (lines 99-109). *)
Theorem lower_rows_complete (altair : Alt.Release) (csv : DataFrame) (selected : gset string)
    (picked : option string) (v : string) (rows : DataFrame) :
  v_lower (app altair csv selected picked) = Some (v, rows) →
  rows `sublist_of` v_data (app altair csv selected picked) ∧ Forall survives rows.
Proof.
  rewrite v_lower_app. cbn [app v_data].
  destruct (selected_state _ picked) as [v'|]; simpl; [|done].
  intros [= -> <-].
  assert (scatter_data (with_duration (assign_region csv)) v
            `sublist_of` with_duration (assign_region csv)) as Hsub.
  { unfold scatter_data. destruct (decide (v = All_States)); [done|].
    apply sublist_filter. }
  split; [done|]. apply Forall_forall. intros r Hr.
  assert (r ∈ with_duration (assign_region csv)) as Hin
    by (by eapply elem_of_sublist).
  rewrite with_duration_filter in Hin.
  by apply list_elem_of_filter in Hin as [? _].
Qed.

(** X10 on [three_fires] at the initial value of the dropdown. *)
Lemma lower_rows_complete_witness :
  scatter_data (v_data (app Alt.RemapsEmptyString three_fires ∅ None)) "CA"
    `sublist_of` v_data (app Alt.RemapsEmptyString three_fires ∅ None)
  ∧ Forall survives (scatter_data (v_data (app Alt.RemapsEmptyString three_fires ∅ None)) "CA").
Proof.
  apply (lower_rows_complete Alt.RemapsEmptyString three_fires ∅ None "CA").
  vm_compute. reflexivity.
Defined.

(** ** The region column in the filtered table *)

Lemma state_to_region_names :
  map_Forall (λ _ region, region ∈ region_map.*1) state_to_region.
Proof. compute_done. Qed.

(** X11: the duration column and the data-quality filter leave the region
    column as line 37 set it: every row of the filtered [data] has the
    region that [state_to_region] gives for its state, which is missing or
    one of the 9 region names (lines 25-37 and 99-101). *)
Theorem region_kept (altair : Alt.Release) (csv : DataFrame)
    (selected : gset string) (picked : option string) :
  Forall (λ r, REGION r = Pd.map_dict state_to_region (STATE r)
               ∧ (REGION r = None
                  ∨ ∃ region, REGION r = Some region ∧ region ∈ region_map.*1))
         (v_data (app altair csv selected picked)).
Proof.
  apply Forall_forall. intros r.
  cbn [app v_data]. rewrite elem_of_with_duration. unfold assign_region.
  intros (r1 & c & d & (r0 & -> & _)%list_elem_of_fmap & _ & _ & _ & _ & _ & ->).
  simpl. split; [done|].
  destruct (Pd.map_dict state_to_region (STATE r0)) as [region|] eqn:Hregion;
    [right | by left].
  exists region. split; [done|].
  unfold Pd.map_dict in Hregion. destruct (STATE r0) as [s|]; [|done].
  simpl in Hregion. by apply state_to_region_names in Hregion.
Qed.

(** ** The views of the dropdown, state by state *)

Lemma dropna_fmap {A B} (f : A → option B) (l : list A) :
  Pd.dropna (f <$> l) = omap f l.
Proof.
  unfold Pd.dropna. induction l as [|x l IH]; [done|]. csimpl.
  rewrite IH. by destruct (f x).
Qed.

(** X12: provided no row has the text "All States" as its state code, the
    views of the state options split the filtered [data]: their sizes add
    up to the number of its rows that have a state code, so a row without
    one is shown under "All States" only (lines 104-109). *)
Theorem state_views_split (altair : Alt.Release) (csv : DataFrame) (selected : gset string)
    (picked : option string) :
  (∀ r, r ∈ csv → STATE r ≠ Some "All States") →
  sum_list ((λ s, length (scatter_data (v_data (app altair csv selected picked)) s))
              <$> tail (v_state_options (app altair csv selected picked)))
  = length (filter (λ r, is_Some (STATE r)) (v_data (app altair csv selected picked))).
Proof.
  intros Hcodes. cbn [app v_state_options v_data].
  set (data := with_duration (assign_region csv)).
  unfold state_options. simpl. unfold Py.sorted. rewrite dropna_fmap.
  change (merge_sort String.le (Pd.unique (omap STATE data)))
    with (group_keys String.le STATE data).
  rewrite (list_fmap_ext _ (Pd.group_size STATE data) (group_keys String.le STATE data)).
  - rewrite sum_group_size by apply NoDup_group_keys.
    f_equal. apply filter_ext_elem_of. intros r Hr.
    rewrite key_sat_spec. setoid_rewrite elem_of_group_keys. unfold is_Some.
    split.
    + intros (s & Hs & _). eauto.
    + intros (s & Hs). exists s. eauto.
  - intros _ s Hs%list_elem_of_lookup_2.
    apply elem_of_group_keys in Hs as (r & Hr & Hs).
    unfold scatter_data. rewrite decide_False; [done|]. intros ->.
    unfold data in Hr. apply elem_of_with_duration in Hr
      as (r1 & c & d & (r0 & -> & Hr0)%list_elem_of_fmap & _ & _ & _ & _ & _ & ->).
    by apply (Hcodes r0).
Qed.

(** X12 on [three_fires]. *)
Lemma state_views_split_witness :
  sum_list ((λ s, length (scatter_data
                            (v_data (app Alt.RemapsEmptyString three_fires ∅ None)) s))
              <$> tail (v_state_options (app Alt.RemapsEmptyString three_fires ∅ None)))
  = length (filter (λ r, is_Some (STATE r))
              (v_data (app Alt.RemapsEmptyString three_fires ∅ None))).
Proof.
  apply (state_views_split Alt.RemapsEmptyString three_fires ∅ None).
  apply Forall_forall. vm_compute. repeat constructor; discriminate.
Defined.

(** ** From a highlighted bar to its line *)

Lemma year_sum_of_state (csv : DataFrame) (s : string) :
  (sum_list (filter (λ e, e.1.2 = s) (yearly_trends csv)).*2
   + length (filter (λ r, STATE r = Some s ∧ FIRE_YEAR r = None) csv))%nat
  = length (filter (λ r, STATE r = Some s) csv).
Proof.
  unfold yearly_trends.
  pose proof (sum_groupby_size year_state_le year_state_key (λ k, k.2 = s) csv)
    as Hsum.
  cbv beta in Hsum. rewrite Hsum. clear Hsum.
  symmetry. apply length_filter_split. intros r. rewrite key_sat_spec. split.
  - split.
    + intros Hs. destruct (FIRE_YEAR r) as [y|] eqn:Hy; [left | by right].
      exists (y, s). by rewrite year_state_key_Some.
    + intros [((y & s') & Hk & Heq)|[? _]]; [|done].
      apply year_state_key_Some in Hk as [_ Hs]. simpl in Heq. by subst.
  - intros [((y & s') & Hk & _) [_ Hy]].
    apply year_state_key_Some in Hk as [Hy' _]. congruence.
Qed.

(** X13: for a bar at opacity 1, of height [m], the points that the line
    chart shows for that state, together with the fires of that state
    without a year, add up to [m]: clicking a bar reveals all its fires
    that have a year (lines 40-79). *)
Theorem highlighted_bar_line (altair : Alt.Release) (csv : DataFrame) (selected : gset string)
    (picked : option string) (s : string) (m : nat) :
  (s, m, 1%Q) ∈ v_bar_chart (app altair csv selected picked) →
  (sum_list (filter (λ d, d.1.2 = s) (v_line_chart (app altair csv selected picked))).*2
   + length (filter (λ r, STATE r = Some s ∧ FIRE_YEAR r = None) csv))%nat = m.
Proof.
  cbn [app v_bar_chart v_line_chart].
  rewrite state_counts_assign_region, yearly_trends_assign_region.
  rewrite bar_chart_passes. intros ([s' m'] & Heq & Hin)%list_elem_of_fmap.
  simpl in Heq.
  destruct (decide (passes altair selected s')) as [Hsel|_]; [|discriminate].
  injection Heq as <- <-.
  unfold state_counts in Hin. apply elem_of_groupby_size in Hin as [-> _].
  rewrite line_chart_passes, list_filter_filter.
  rewrite (filter_ext_elem_of _ (λ e, e.1.2 = s) (yearly_trends csv)).
  - apply year_sum_of_state.
  - intros e _. split; [by intros [? _] | by intros ->].
Qed.

(** X13 on [five_fires] with CA selected. *)
Lemma highlighted_bar_line_witness :
  (sum_list (filter (λ d, d.1.2 = "CA")
               (v_line_chart (app Alt.IgnoresEmptyString five_fires {["CA"]} None))).*2
   + length (filter (λ r, STATE r = Some "CA" ∧ FIRE_YEAR r = None) five_fires))%nat
  = 3%nat.
Proof.
  apply (highlighted_bar_line Alt.IgnoresEmptyString five_fires {["CA"]} None "CA" 3).
  vm_compute. left.
Defined.
